(** * Vector GraphQL tool server (vector_server.py)

    Four tool handlers, each wrapping one GraphQL query: the handler may
    notify an injected observer, builds a fixed query document and a
    variables object, issues one HTTP POST through an [httpx] client and
    returns the response text or a formatted error string.

    The embedding follows the Python text.  Dictionaries keep their insertion
    order (association lists), exceptions are explicit ([Completion]), and
    the effects of a handler (observer calls, client life cycle, the POST)
    are threaded through a small state-and-exception monad that records
    them as events. *)

From Stdlib Require Import String Ascii List ZArith Bool Lia.
Import ListNotations.
Local Open Scope string_scope.
Set Warnings "-register-all".

(** ** Python values *)

(** The values the handlers put into a request payload: [None], [int],
    [str] and [dict] (insertion ordered). *)
Inductive json : Type :=
| JNull
| JInt (z : Z)
| JStr (s : string)
| JObj (fields : list (string * json)).

(** [d.get(k)] on an insertion-ordered dictionary without repeated keys. *)
Fixpoint dict_get {A : Type} (k : string) (d : list (string * A)) : option A :=
  match d with
  | [] => None
  | (k', v) :: d' => if String.eqb k k' then Some v else dict_get k d'
  end.

(** An instance of [Exception]: its class name and [str(e)]. *)
Record PyException : Type := mkExc { exc_class : string; exc_str : string }.

(** How a Python call ends: it returns a value or raises. *)
Inductive Completion (A : Type) : Type :=
| Returns (a : A)
| Raises (e : PyException).
Arguments Returns {A} a.
Arguments Raises {A} e.

(** ** Module constants *)

Definition API_URL : string := "https://mainnet-api.vector.fun/graphql".

Definition HEADERS : list (string * string) :=
  [ ("Host", "mainnet-api.vector.fun");
    ("content-type", "application/json");
    ("X-App-Version", "1.11.0");
    ("X-App-Build-Number", "331");
    ("accept", "*/*");
    ("x-app-name", "Vector");
    ("Accept-Language", "en-US;q=1");
    ("user-agent", "Vector/331 CFNetwork/1568.200.51 Darwin/24.1.0");
    ("pragma", "no-cache");
    ("cache-control", "no-cache") ].

(** The four GraphQL documents, as the triple-quoted literals of the module:
    each starts with the line break after the opening quotes and ends with
    the line break before the closing ones. *)

Definition LEADERBOARD_QUERY : string := "
query leaderboardScreenQuery(
  $groupId: String
  $leaderboardType: LeaderboardType!
  $periodsAgo: Int
  $first: Int
  $after: String
) {
  ...leaderboardFragment_31k55b
}

fragment InlineProfileFragment on Profile {
  id
  ...ProfilePicFragment
  ...ProfileUsernameFragment
}

fragment LeaderboardEntryFragment on LeaderboardEntry {
  profileId
  broadcastCount
  rank
  value
  percentileV2
  profile {
    id
    username
    profileImageUrl
    twitterUsername
    isVerified
    followerCount
    followerCountX
    ...InlineProfileFragment
    ...ProfilePicFragment
  }
}

fragment ProfileBadgesFragment on Profile {
  username
  twitterUsername
  isVerified
}

fragment ProfilePicFragment on Profile {
  id
  username
  moderationState
  profileImageUrl
  ...ProfileBadgesFragment
}

fragment ProfileUsernameFragment on Profile {
  username
  moderationState
  ...ProfileBadgesFragment
}

fragment leaderboardFragment_31k55b on Query {
  leaderboardWeekly(leaderboardType: $leaderboardType, groupId: $groupId, periodsAgo: $periodsAgo, first: $first, after: $after) {
    edges {
      node {
        profileId
        ...LeaderboardEntryFragment
        __typename
      }
      cursor
    }
    resetsAt
    pageInfo {
      endCursor
      hasNextPage
    }
  }
}
".

Definition PROFILE_QUERY : string := "
query UsernameProfileQuery(
  $username: String!
  $cursor: String
  $count: Int
) {
  profile(username: $username, refcode: $username) {
    id
    username
    moderationState
    twitterUsername
    followerCountX
    followerCount
    weeklyLeaderboardStanding(leaderboardType: PNL_WIN) {
      rank
      value
    }
    profileLeaderboardValues {
      daily {
        pnl
        volume
        maxTradeSize
      }
      weekly {
        pnl
        volume
        maxTradeSize
      }
    }
  }
  userHoldings(id: $username, after: $cursor, first: $count) {
    edges {
      cursor
      node {
        portfolioPercentage
        token {
          id
          address
          chain
          name
          symbol
          image
        }
      }
    }
    pageInfo {
      hasNextPage
      endCursor
    }
  }
  userBroadcastsV2(id: $username, after: $cursor, first: $count) {
    edges {
      cursor
      node {
        broadcast {
          id
          message
          createdAt
          buyTokenId
          buyTokenAmount
          buyPositionSize
          buyTokenPrice: buyTokenPriceV2
          sellTokenId
          sellTokenAmount
          sellPositionSize
          sellTokenPrice: sellTokenPriceV2
          broadcastCandleChart {
            cycleStats {
              pnl
              totalBought
              totalHeld
              totalSold
            }
          }
        }
        buyToken {
          id
          chain
          name
          symbol
          price
          image
          address
        }
        sellToken {
          id
          chain
          name
          symbol
          price
          image
          address
        }
      }
    }
    pageInfo {
      endCursor
      hasNextPage
    }
  }
}
".

Definition TOKENS_LIST_QUERY : string := "
query TokensListRefetchQuery(
    $count: Int = 25
    $cursor: String
    $filterBy: String
    $query: String
    $sortBy: String
) {
    searchTokens(query: $query, sortBy: $sortBy, filterBy: $filterBy, after: $cursor, first: $count) {
        edges {
            node {
                id
                address
                chain
                symbol
                price
                supply
                volume5min
                volume1h
                volume6h
                volume24h
                broadcastCount5min
                broadcastCount1h
                broadcastCount6h
                broadcastCount24h
                top10HolderPercentV2
                firstIndexedTimestamp
                insiderHoldingPercent
                devHoldingPercent
            }
        }
    }
}
".

Definition TOKEN_BROADCASTS_QUERY : string := "
query TokenBroadcastsQuery(
    $id: ID!
    $after: String
    $first: Int = 100
    $sortBy: TokenBroadcastSortBy
    $sortDirection: TokenBroadcastSortDirection
) {
    tokenBroadcasts(
        id: $id
        after: $after
        first: $first
        sortBy: $sortBy
        sortDirection: $sortDirection
    ) {
        edges {
            node {
                broadcast {
                    message
                }
            }
        }
    }
}
".

(** ** The httpx client *)

(** What [client.post] is called with, together with the [verify] setting
    of the client it is called on. *)
Record Request : Type := mkRequest {
  req_method : string;
  req_verify : bool;
  req_url : string;
  req_json : json;
  req_headers : list (string * string)
}.

(** An [httpx.Response] as far as the handlers look at it: the status, the
    decoded body ([response.text]) and the [HTTPStatusError] that
    [raise_for_status] raises for it when the status is not a success. *)
Record Response : Type := mkResponse {
  status_code : Z;
  text : string;
  status_error : PyException
}.

(** Modelled from the spec: [Response.raise_for_status] is httpx library code
    and not under src/.  Sections 4.2 and 7: a non-2xx status is a failure and
    anything in the 2xx range passes. *)
Definition is_success (r : Response) : bool :=
  (200 <=? status_code r)%Z && (status_code r <=? 299)%Z.

Record AsyncClient : Type := mkClient { verify : bool }.

(** ** The observer *)

(** The injected [ctx]: its truth value ([if ctx:]) and how a call of its
    [info] and [error] methods ends. *)
Record Context : Type := mkContext {
  ctx_bool : bool;
  ctx_info : string -> Completion unit;
  ctx_error : string -> Completion unit
}.

Inductive Level : Type := Info | Error.

(** ** Effects *)

Inductive Event : Type :=
| Notify (lvl : Level) (msg : string)
| ClientOpened (client : AsyncClient)
| Post (req : Request) (out : Completion Response)
| ClientClosed.

(** The outbound requests among the events of a run. *)
Fixpoint requests (evs : list Event) : list Request :=
  match evs with
  | [] => []
  | Post req _ :: evs' => req :: requests evs'
  | _ :: evs' => requests evs'
  end.

(** The observer calls among the events of a run. *)
Fixpoint notifications (evs : list Event) : list (Level * string) :=
  match evs with
  | [] => []
  | Notify lvl msg :: evs' => (lvl, msg) :: notifications evs'
  | _ :: evs' => notifications evs'
  end.

(** One entry per tool registered with [@mcp.tool], with the arguments a host
    supplies; [None] for [leaderboard_type] means the argument is left out. *)
Inductive ToolCall : Type :=
| CallLeaderboard (leaderboard_type : option string)
| CallProfile (username : string)
| CallTokenData
| CallTokenBroadcasts (token_id : string).

Definition tool_name (c : ToolCall) : string :=
  match c with
  | CallLeaderboard _ => "fetch_leaderboard"
  | CallProfile _ => "fetch_profile"
  | CallTokenData => "fetch_token_data"
  | CallTokenBroadcasts _ => "fetch_token_broadcasts"
  end.

Section Handlers.

(** The remote end: a state of its own and, for each request, the next state
    and how [client.post] ends.  Nothing else is shared between invocations. *)
Variable Net : Type.
Variable transport : Net -> Request -> Net * Completion Response.

(** A finished run: the network state it leaves, the events in order, and
    the completion. *)
Record Run (A : Type) : Type := mkRun {
  net_after : Net;
  events : list Event;
  outcome : Completion A
}.
Arguments mkRun {A} _ _ _.
Arguments net_after {A} _.
Arguments events {A} _.
Arguments outcome {A} _.

Definition M (A : Type) : Type := Net -> Run A.

Definition ret {A : Type} (a : A) : M A := fun n => mkRun n [] (Returns a).

Definition complete {A : Type} (c : Completion A) : M A := fun n => mkRun n [] c.

Definition bind {A B : Type} (m : M A) (k : A -> M B) : M B := fun n =>
  let r := m n in
  match outcome r with
  | Raises e => mkRun (net_after r) (events r) (Raises e)
  | Returns a =>
      let r' := k a (net_after r) in
      mkRun (net_after r') (events r ++ events r')%list (outcome r')
  end.

Notation "x <- m ;; k" := (bind m (fun x => k))
  (at level 100, m at next level, right associativity).
Notation "m ;; k" := (bind m (fun _ => k))
  (at level 100, right associativity).

Definition emit (ev : Event) : M unit := fun n => mkRun n [ev] (Returns tt).

(** [try: body / except Exception as e: handler e]. *)
Definition try_except {A : Type} (body : M A) (handler : PyException -> M A) : M A :=
  fun n =>
    let r := body n in
    match outcome r with
    | Returns _ => r
    | Raises e =>
        let r' := handler e (net_after r) in
        mkRun (net_after r') (events r ++ events r')%list (outcome r')
    end.

(** [async with httpx.AsyncClient(verify=...) as client: body]: the client is
    closed on every way out of the body. *)
Definition async_with {A : Type} (client : AsyncClient) (body : AsyncClient -> M A) : M A :=
  fun n =>
    let r := body client n in
    mkRun (net_after r) (ClientOpened client :: events r ++ [ClientClosed])%list (outcome r).

(** [await client.post(url, json=payload, headers=headers)]. *)
Definition post (client : AsyncClient) (url : string) (payload : json)
    (headers : list (string * string)) : M Response := fun n =>
  let req := mkRequest "POST" (verify client) url payload headers in
  let (n', out) := transport n req in
  mkRun n' [Post req out] out.

Definition raise_for_status (r : Response) : M unit :=
  complete (if is_success r then Returns tt else Raises (status_error r)).

(** [if ctx: ctx.<method>(...)]. *)
Definition if_ctx (ctx : option Context) (call : Context -> M unit) : M unit :=
  match ctx with
  | None => ret tt
  | Some c => if ctx_bool c then call c else ret tt
  end.

Definition info (msg : string) (c : Context) : M unit :=
  emit (Notify Info msg) ;; complete (ctx_info c msg).

Definition error (msg : string) (c : Context) : M unit :=
  emit (Notify Error msg) ;; complete (ctx_error c msg).

(** Binding of a parameter that has a default. *)
Definition arg {A : Type} (default : A) (supplied : option A) : A :=
  match supplied with
  | Some a => a
  | None => default
  end.

(** ** The four tools *)

Definition fetch_leaderboard (leaderboard_type : option string) (ctx : option Context)
    : M string :=
  let leaderboard_type := arg "PNL_WIN" leaderboard_type in
  if_ctx ctx (info ("Fetching " ++ leaderboard_type ++ " leaderboard data...")) ;;
  let variables := JObj
    [ ("after", JNull);
      ("first", JInt 100);
      ("groupId", JNull);
      ("leaderboardType", JStr leaderboard_type);
      ("periodsAgo", JNull) ] in
  let payload := JObj
    [ ("query", JStr LEADERBOARD_QUERY);
      ("variables", variables) ] in
  async_with (mkClient false) (fun client =>
    try_except
      (response <- post client API_URL payload HEADERS ;;
       raise_for_status response ;;
       ret (text response))
      (fun e =>
       let error_message := "Error fetching leaderboard data: " ++ exc_str e in
       if_ctx ctx (error error_message) ;;
       ret error_message)).

Definition fetch_profile (username : string) (ctx : option Context) : M string :=
  if_ctx ctx (info ("Fetching profile data for " ++ username ++ "...")) ;;
  let variables := JObj
    [ ("username", JStr username);
      ("cursor", JNull);
      ("count", JInt 10) ] in
  let payload := JObj
    [ ("query", JStr PROFILE_QUERY);
      ("variables", variables) ] in
  async_with (mkClient false) (fun client =>
    try_except
      (response <- post client API_URL payload HEADERS ;;
       raise_for_status response ;;
       ret (text response))
      (fun e =>
       let error_message := "Error fetching profile data: " ++ exc_str e in
       if_ctx ctx (error error_message) ;;
       ret error_message)).

Definition fetch_token_data (ctx : option Context) : M string :=
  if_ctx ctx (info "Fetching trending Solana tokens...") ;;
  let variables := JObj
    [ ("count", JInt 50);
      ("cursor", JNull);
      ("filterBy", JStr "(broadcastCount5minV2:>0) && (chain:SOLANA)");
      ("query", JNull);
      ("sortBy", JStr "trendingScore5min:desc") ] in
  let payload := JObj
    [ ("query", JStr TOKENS_LIST_QUERY);
      ("variables", variables) ] in
  async_with (mkClient false) (fun client =>
    try_except
      (response <- post client API_URL payload HEADERS ;;
       raise_for_status response ;;
       ret (text response))
      (fun e =>
       let error_message := "Error fetching token data: " ++ exc_str e in
       if_ctx ctx (error error_message) ;;
       ret error_message)).

Definition fetch_token_broadcasts (token_id : string) (ctx : option Context) : M string :=
  if_ctx ctx (info ("Fetching broadcasts for token " ++ token_id ++ "...")) ;;
  let variables := JObj
    [ ("id", JStr token_id);
      ("after", JNull);
      ("first", JInt 100);
      ("sortBy", JStr "Time");
      ("sortDirection", JStr "Desc") ] in
  let payload := JObj
    [ ("query", JStr TOKEN_BROADCASTS_QUERY);
      ("variables", variables) ] in
  async_with (mkClient false) (fun client =>
    try_except
      (response <- post client API_URL payload HEADERS ;;
       raise_for_status response ;;
       ret (text response))
      (fun e =>
       let error_message := "Error fetching token broadcasts: " ++ exc_str e in
       if_ctx ctx (error error_message) ;;
       ret error_message)).

(** Dispatch of a host's call to the registered handler. *)
Definition invoke (c : ToolCall) (ctx : option Context) : M string :=
  match c with
  | CallLeaderboard leaderboard_type => fetch_leaderboard leaderboard_type ctx
  | CallProfile username => fetch_profile username ctx
  | CallTokenData => fetch_token_data ctx
  | CallTokenBroadcasts token_id => fetch_token_broadcasts token_id ctx
  end.

(** ** The shape the four handlers share

    The handlers differ only in the text they announce, the payload they
    send and the prefix of their error text. *)

Definition graphql_tool (announce : string) (payload : json) (error_prefix : string)
    (ctx : option Context) : M string :=
  if_ctx ctx (info announce) ;;
  async_with (mkClient false) (fun client =>
    try_except
      (response <- post client API_URL payload HEADERS ;;
       raise_for_status response ;;
       ret (text response))
      (fun e =>
       let error_message := error_prefix ++ exc_str e in
       if_ctx ctx (error error_message) ;;
       ret error_message)).

Definition announcement (c : ToolCall) : string :=
  match c with
  | CallLeaderboard t => "Fetching " ++ arg "PNL_WIN" t ++ " leaderboard data..."
  | CallProfile u => "Fetching profile data for " ++ u ++ "..."
  | CallTokenData => "Fetching trending Solana tokens..."
  | CallTokenBroadcasts i => "Fetching broadcasts for token " ++ i ++ "..."
  end.

Definition payload_of (c : ToolCall) : json :=
  match c with
  | CallLeaderboard t => JObj
      [ ("query", JStr LEADERBOARD_QUERY);
        ("variables", JObj
           [ ("after", JNull); ("first", JInt 100); ("groupId", JNull);
             ("leaderboardType", JStr (arg "PNL_WIN" t)); ("periodsAgo", JNull) ]) ]
  | CallProfile u => JObj
      [ ("query", JStr PROFILE_QUERY);
        ("variables", JObj
           [ ("username", JStr u); ("cursor", JNull); ("count", JInt 10) ]) ]
  | CallTokenData => JObj
      [ ("query", JStr TOKENS_LIST_QUERY);
        ("variables", JObj
           [ ("count", JInt 50); ("cursor", JNull);
             ("filterBy", JStr "(broadcastCount5minV2:>0) && (chain:SOLANA)");
             ("query", JNull); ("sortBy", JStr "trendingScore5min:desc") ]) ]
  | CallTokenBroadcasts i => JObj
      [ ("query", JStr TOKEN_BROADCASTS_QUERY);
        ("variables", JObj
           [ ("id", JStr i); ("after", JNull); ("first", JInt 100);
             ("sortBy", JStr "Time"); ("sortDirection", JStr "Desc") ]) ]
  end.

(** What each handler says it was doing when it failed. *)
Definition action (c : ToolCall) : string :=
  match c with
  | CallLeaderboard _ => "fetching leaderboard data"
  | CallProfile _ => "fetching profile data"
  | CallTokenData => "fetching token data"
  | CallTokenBroadcasts _ => "fetching token broadcasts"
  end.

Definition error_prefix_of (c : ToolCall) : string := "Error " ++ action c ++ ": ".

(** The request a call sends; it depends on the call's arguments only. *)
Definition request_of (c : ToolCall) : Request :=
  mkRequest "POST" false API_URL (payload_of c) HEADERS.

(** The message of the exception the [try] block ends with, if any:
    [client.post] raised, or [raise_for_status] did. *)
Definition failure_message (out : Completion Response) : option string :=
  match out with
  | Raises e => Some (exc_str e)
  | Returns r => if is_success r then None else Some (exc_str (status_error r))
  end.

(** The text a handler hands back for a given end of the POST. *)
Definition reply (c : ToolCall) (out : Completion Response) : string :=
  match out with
  | Raises e => error_prefix_of c ++ exc_str e
  | Returns r =>
      if is_success r then text r
      else error_prefix_of c ++ exc_str (status_error r)
  end.

(** How [if ctx: ctx.<method>(msg)] ends. *)
Definition guarded (ctx : option Context)
    (method : Context -> string -> Completion unit) (msg : string) : Completion unit :=
  match ctx with
  | None => Returns tt
  | Some c => if ctx_bool c then method c msg else Returns tt
  end.

(** What the [except] branch makes of an exception. *)
Definition handled (pre : string) (ctx : option Context) (e : PyException)
    : Completion string :=
  match guarded ctx ctx_error (pre ++ exc_str e) with
  | Returns _ => Returns (pre ++ exc_str e)
  | Raises x => Raises x
  end.

(** The observer is absent or false, or its [info] (resp. [error]) calls
    return. *)
Definition info_returns (ctx : option Context) : Prop :=
  forall msg, guarded ctx ctx_info msg = Returns tt.

Definition error_returns (ctx : option Context) : Prop :=
  forall msg, guarded ctx ctx_error msg = Returns tt.

End Handlers.

Arguments mkRun {Net A} _ _ _.
Arguments net_after {Net A} _.
Arguments events {Net A} _.
Arguments outcome {Net A} _.
Arguments fetch_leaderboard {Net} transport leaderboard_type ctx _.
Arguments fetch_profile {Net} transport username ctx _.
Arguments fetch_token_data {Net} transport ctx _.
Arguments fetch_token_broadcasts {Net} transport token_id ctx _.
Arguments invoke {Net} transport c ctx _.
Arguments graphql_tool {Net} transport announce payload error_prefix ctx _.

(** The requests a run sent. *)
Definition sent {Net A : Type} (r : Run Net A) : list Request := requests (events r).

(** ** Reading a request *)

Definition variables_of (req : Request) : option json :=
  match req_json req with
  | JObj fields => dict_get "variables" fields
  | _ => None
  end.

Definition query_of (req : Request) : option json :=
  match req_json req with
  | JObj fields => dict_get "query" fields
  | _ => None
  end.

(** The body of a request on the wire, for a serialiser [dumps] of the
    payload (httpx encodes the [json=] argument). *)
Definition body (dumps : json -> string) (req : Request) : string :=
  dumps (req_json req).

(** ** Transports and observers used by the examples *)

Definition connect_error : PyException :=
  mkExc "ConnectError" "All connection attempts failed".

(** An endpoint that cannot be reached: every POST raises. *)
Definition unreachable (n : unit) (req : Request) : unit * Completion Response :=
  (n, Raises connect_error).

(** An endpoint that answers every POST with the same response. *)
Definition answering (r : Response) (n : unit) (req : Request)
    : unit * Completion Response :=
  (n, Returns r).

(** An observer whose notifications return. *)
Definition attentive : Context :=
  mkContext true (fun _ => Returns tt) (fun _ => Returns tt).

(** An observer used outside of a request: every notification raises. *)
Definition outside_request : Context :=
  let e := mkExc "ValueError" "Context is not available outside of a request" in
  mkContext true (fun _ => Raises e) (fun _ => Raises e).

(** An observer that takes [info] calls and fails on [error] calls. *)
Definition info_only : Context :=
  mkContext true (fun _ => Returns tt)
    (fun _ => Raises (mkExc "NotImplementedError" "error")).

Definition quoted (s : string) : string :=
  String "034" (s ++ String "034" EmptyString).

(** The body [{"data":{"tokenBroadcasts":{"edges":[]}}}]. *)
Definition no_broadcasts_body : string :=
  "{" ++ quoted "data" ++ ":{" ++ quoted "tokenBroadcasts" ++ ":{"
      ++ quoted "edges" ++ ":[]}}}".

(** A 404 answer, with the message httpx attaches to its error. *)
Definition not_found : Response :=
  mkResponse 404 "Not Found"
    (mkExc "HTTPStatusError"
       "Client error '404 Not Found' for url 'https://mainnet-api.vector.fun/graphql'").

Definition ok_response (body : string) : Response :=
  mkResponse 200 body (mkExc "HTTPStatusError" "unused: the status is a success").

(** ** Reading a run and a document *)

(** The life cycle of the client in a list of events: a client is opened
    only when none is open, a POST goes through an open client, and the
    client that was opened has been closed at the end.  [open] tells whether a
    client is open before the first event. *)
Fixpoint bracketed (open : bool) (evs : list Event) : bool :=
  match evs with
  | [] => negb open
  | Notify _ _ :: evs' => bracketed open evs'
  | ClientOpened _ :: evs' => negb open && bracketed true evs'
  | Post _ _ :: evs' => open && bracketed open evs'
  | ClientClosed :: evs' => open && bracketed false evs'
  end.

(** The clients a run created. *)
Fixpoint clients (evs : list Event) : list AsyncClient :=
  match evs with
  | [] => []
  | ClientOpened client :: evs' => client :: clients evs'
  | _ :: evs' => clients evs'
  end.

(** A call after the binding of its parameters: a left-out [leaderboard_type]
    is the default of the signature. *)
Definition bind_defaults (c : ToolCall) : ToolCall :=
  match c with
  | CallLeaderboard t => CallLeaderboard (Some (arg "PNL_WIN" t))
  | _ => c
  end.

(** The variable definitions in the head of a GraphQL operation,
    [query Name($a: T! $b: U = d ...) {]: each name with whether its type is
    marked non-null ([!]).  The scan starts outside a definition, reads a
    name from [$] to [:], the type to the end of the line, and stops at the
    parenthesis that closes the head. *)
Inductive Scan : Type :=
| Outside
| InName (name : string)
| InType (name : string) (required : bool).

Fixpoint scan_definitions (st : Scan) (doc : string) : list (string * bool) :=
  match doc with
  | EmptyString => []
  | String ch doc' =>
      match st with
      | Outside =>
          if Ascii.eqb ch "$" then scan_definitions (InName EmptyString) doc'
          else if Ascii.eqb ch ")" then []
          else scan_definitions Outside doc'
      | InName name =>
          if Ascii.eqb ch ":" then scan_definitions (InType name false) doc'
          else scan_definitions (InName (name ++ String ch EmptyString)) doc'
      | InType name required =>
          if Ascii.eqb ch "010" then (name, required) :: scan_definitions Outside doc'
          else if Ascii.eqb ch ")" then [(name, required)]
          else scan_definitions (InType name (required || Ascii.eqb ch "!")) doc'
      end
  end.

Definition declared_variables (doc : string) : list (string * bool) :=
  scan_definitions Outside doc.

(** The request carries a document and a variables object that fit: every
    variable the document defines is a key of the object, with a value other
    than [None] when the definition is marked non-null, and every key of the
    object is a variable the document defines. *)
Definition variables_fit (req : Request) : Prop :=
  exists (doc : string) (vars : list (string * json)),
    query_of req = Some (JStr doc)
    /\ variables_of req = Some (JObj vars)
    /\ Forall (fun d : string * bool =>
                 exists v : json,
                   dict_get (fst d) vars = Some v
                   /\ (snd d = true -> v <> JNull))
              (declared_variables doc)
    /\ Forall (fun kv : string * json =>
                 In (fst kv) (map fst (declared_variables doc)))
              vars.

(** * Facts about the handlers *)

Lemma prefix_append (p s : string) : prefix p (p ++ s) = true.
Proof.
  induction p as [|a p IH]; cbn.
  - now destruct s.
  - destruct (ascii_dec a a); [assumption | congruence].
Qed.

Section HandlerFacts.

Variable Net : Type.
Variable transport : Net -> Request -> Net * Completion Response.

(** Every handler is an instance of the shared shape. *)
Lemma invoke_shape (c : ToolCall) (ctx : option Context) :
  invoke transport c ctx =
  graphql_tool transport (announcement c) (payload_of c) (error_prefix_of c) ctx.
Proof. destruct c; reflexivity. Qed.

Ltac run_cases ctx n :=
  unfold graphql_tool, async_with, try_except, bind, post, raise_for_status,
    if_ctx, info, error, emit, complete, ret, sent, guarded;
  destruct ctx as [?c|]; cbn;
  [ destruct (ctx_bool _) eqn:?; cbn;
    [ destruct (ctx_info _ _) as [[]|?] eqn:?; cbn | ] | ];
  try (destruct (transport n _) as [?n [?r|?e]] eqn:?; cbn;
       [ destruct (is_success _) eqn:?; cbn | ];
       try (destruct (ctx_error _ _) as [[]|?] eqn:?; cbn)).

Lemma graphql_tool_sent announce payload pre ctx n :
  sent (graphql_tool transport announce payload pre ctx n) =
  match guarded ctx ctx_info announce with
  | Returns _ => [mkRequest "POST" false API_URL payload HEADERS]
  | Raises _ => []
  end.
Proof. run_cases ctx n; reflexivity. Qed.

(** A POST among the events is the handler's own request, answered by the
    transport from the state the handler was entered in, and the opening
    notification (if any) had returned. *)
Lemma graphql_tool_post announce payload pre ctx n req out :
  In (Post req out) (events (graphql_tool transport announce payload pre ctx n)) ->
  req = mkRequest "POST" false API_URL payload HEADERS
  /\ snd (transport n req) = out
  /\ guarded ctx ctx_info announce = Returns tt.
Proof.
  run_cases ctx n; intros H; cbn in H;
    repeat match goal with
           | H : _ \/ _ |- _ => destruct H as [H|H]
           | H : False |- _ => destruct H
           | H : @eq Event _ _ |- _ => inversion H; subst; clear H
           | H : transport _ _ = _ |- _ => rewrite H
           end;
    auto.
Qed.

Lemma graphql_tool_outcome announce payload pre ctx n :
  outcome (graphql_tool transport announce payload pre ctx n) =
  match guarded ctx ctx_info announce with
  | Raises x => Raises x
  | Returns _ =>
      match snd (transport n (mkRequest "POST" false API_URL payload HEADERS)) with
      | Returns r => if is_success r then Returns (text r) else handled pre ctx (status_error r)
      | Raises e => handled pre ctx e
      end
  end.
Proof.
  unfold handled.
  run_cases ctx n; try reflexivity;
    repeat match goal with
           | H : ctx_bool _ = _ |- _ => rewrite H
           | H : ctx_error _ _ = _ |- _ => rewrite H
           end; reflexivity.
Qed.

Lemma graphql_tool_net_after announce payload pre ctx n :
  net_after (graphql_tool transport announce payload pre ctx n) =
  match guarded ctx ctx_info announce with
  | Raises _ => n
  | Returns _ => fst (transport n (mkRequest "POST" false API_URL payload HEADERS))
  end.
Proof. run_cases ctx n; reflexivity. Qed.

Lemma graphql_tool_unobserved_notifications announce payload pre n :
  notifications (events (graphql_tool transport announce payload pre None n)) = [].
Proof.
  unfold graphql_tool, async_with, try_except, bind, post, raise_for_status,
    if_ctx, complete, ret; cbn.
  destruct (transport n _) as [n' [r|e]]; cbn;
    [destruct (is_success r) | ]; reflexivity.
Qed.

Lemma error_prefix_of_append (c : ToolCall) (msg : string) :
  error_prefix_of c ++ msg = "Error " ++ action c ++ ": " ++ msg.
Proof. destruct c; reflexivity. Qed.

Lemma handled_quiet (pre : string) (ctx : option Context) (e : PyException) :
  error_returns ctx -> handled pre ctx e = Returns (pre ++ exc_str e).
Proof. intros H. unfold handled. now rewrite H. Qed.

(** With an observer that does not fail, the outcome is the reply to whatever
    the transport did. *)
Lemma invoke_outcome_quiet (c : ToolCall) (ctx : option Context) (n : Net) :
  info_returns ctx -> error_returns ctx ->
  outcome (invoke transport c ctx n) =
  Returns (reply c (snd (transport n (request_of c)))).
Proof.
  intros Hi He.
  rewrite invoke_shape, graphql_tool_outcome, Hi.
  unfold reply, request_of.
  destruct (snd (transport n _)) as [r|e].
  - destruct (is_success r); [reflexivity | now apply handled_quiet].
  - now apply handled_quiet.
Qed.

Lemma invoke_sent (c : ToolCall) (ctx : option Context) (n : Net) :
  sent (invoke transport c ctx n) = [request_of c]
  \/ sent (invoke transport c ctx n) = [].
Proof.
  rewrite invoke_shape, graphql_tool_sent.
  destruct (guarded ctx ctx_info _); [left | right]; reflexivity.
Qed.

(** No handler sends more than one request. *)
Lemma invoke_sent_at_most_one (c : ToolCall) (ctx : option Context) (n : Net) :
  length (sent (invoke transport c ctx n)) <= 1.
Proof. destruct (invoke_sent c ctx n) as [-> | ->]; cbn; lia. Qed.

Lemma invoke_sent_quiet (c : ToolCall) (ctx : option Context) (n : Net) :
  info_returns ctx -> sent (invoke transport c ctx n) = [request_of c].
Proof. intros Hi. now rewrite invoke_shape, graphql_tool_sent, Hi. Qed.

Lemma absent_info_returns : info_returns None.
Proof. intros msg. reflexivity. Qed.

Lemma absent_error_returns : error_returns None.
Proof. intros msg. reflexivity. Qed.

(** A property of the request of a call holds of everything the call sends. *)
Lemma invoke_sent_Forall (P : Request -> Prop) (c : ToolCall) (ctx : option Context) (n : Net) :
  P (request_of c) -> Forall P (sent (invoke transport c ctx n)).
Proof.
  intros HP. destruct (invoke_sent c ctx n) as [-> | ->]; auto.
Qed.

End HandlerFacts.

Arguments invoke_shape {Net} transport c ctx.
Arguments graphql_tool_post {Net} transport announce payload pre ctx n req out _.
Arguments graphql_tool_outcome {Net} transport announce payload pre ctx n.
Arguments graphql_tool_sent {Net} transport announce payload pre ctx n.
Arguments graphql_tool_net_after {Net} transport announce payload pre ctx n.
Arguments invoke_outcome_quiet {Net} transport c ctx n _ _.
Arguments invoke_sent {Net} transport c ctx n.
Arguments invoke_sent_quiet {Net} transport c ctx n _.
Arguments invoke_sent_Forall {Net} transport P c ctx n _.

(** ** The handlers on concrete inputs *)

Example leaderboard_not_found :
  outcome (invoke (answering not_found) (CallLeaderboard None) None tt)
  = Returns ("Error fetching leaderboard data: "
             ++ "Client error '404 Not Found' for url 'https://mainnet-api.vector.fun/graphql'").
Proof. reflexivity. Qed.

Example leaderboard_events :
  events (invoke (answering not_found) (CallLeaderboard (Some "TRADE_VOLUME"))
                 (Some attentive) tt)
  = [ Notify Info "Fetching TRADE_VOLUME leaderboard data...";
      ClientOpened (mkClient false);
      Post (request_of (CallLeaderboard (Some "TRADE_VOLUME"))) (Returns not_found);
      Notify Error ("Error fetching leaderboard data: "
                    ++ exc_str (status_error not_found));
      ClientClosed ].
Proof. reflexivity. Qed.

Example status_boundaries :
  map (fun code => is_success (mkResponse code EmptyString connect_error))
      [199; 200; 204; 299; 300; 304; 404; 500]%Z
  = [false; true; true; true; false; false; false; false].
Proof. reflexivity. Qed.

Example token_data_outside_request :
  invoke unreachable CallTokenData (Some outside_request) tt
  = mkRun tt [Notify Info "Fetching trending Solana tokens..."]
      (Raises (mkExc "ValueError" "Context is not available outside of a request")).
Proof. reflexivity. Qed.

(** * The claims *)

(** C1 (as amended).  For every tool and every input whose observer is absent,
    false, or returns from its [error] notification: when the POST raised, or
    was answered with a non-2xx status, the tool returns (does not raise) the
    string made of "Error ", the tool's action description, ": " and the
    message of the exception; it begins with "Error ", and for fetch_profile
    it is "Error fetching profile data: " followed by the message. *)
Theorem failed_request_returns_error_text :
  forall (Net : Type) (transport : Net -> Request -> Net * Completion Response)
         (c : ToolCall) (ctx : option Context) (n : Net)
         (req : Request) (out : Completion Response) (msg : string),
    error_returns ctx ->
    In (Post req out) (events (invoke transport c ctx n)) ->
    failure_message out = Some msg ->
    outcome (invoke transport c ctx n) = Returns ("Error " ++ action c ++ ": " ++ msg)
    /\ prefix "Error " ("Error " ++ action c ++ ": " ++ msg) = true
    /\ (forall username, c = CallProfile username ->
          outcome (invoke transport c ctx n)
          = Returns ("Error fetching profile data: " ++ msg)).
Proof.
  intros Net transport c ctx n req out msg Herr Hin Hfail.
  assert (Hout : outcome (invoke transport c ctx n)
                 = Returns ("Error " ++ action c ++ ": " ++ msg)).
  { rewrite invoke_shape in Hin |- *.
    apply graphql_tool_post in Hin. destruct Hin as (-> & Hsnd & Hinfo).
    rewrite graphql_tool_outcome, Hinfo, Hsnd.
    rewrite <- error_prefix_of_append.
    destruct out as [r|e]; cbn in Hfail.
    - destruct (is_success r); [discriminate|].
      injection Hfail as <-. now apply handled_quiet.
    - injection Hfail as <-. now apply handled_quiet. }
  split; [exact Hout|]. split.
  - apply prefix_append.
  - intros username ->. exact Hout.
Qed.

(** fetch_profile(username="trader1") against an unreachable endpoint. *)
Lemma failed_request_returns_error_text_witness :
  error_returns (Some attentive)
  /\ In (Post (request_of (CallProfile "trader1")) (Raises connect_error))
        (events (invoke unreachable (CallProfile "trader1") (Some attentive) tt))
  /\ failure_message (Raises connect_error) = Some "All connection attempts failed"
  /\ outcome (invoke unreachable (CallProfile "trader1") (Some attentive) tt)
     = Returns "Error fetching profile data: All connection attempts failed".
Proof.
  assert (He : error_returns (Some attentive)) by (intros msg; reflexivity).
  assert (Hin : In (Post (request_of (CallProfile "trader1")) (Raises connect_error))
                  (events (invoke unreachable (CallProfile "trader1") (Some attentive) tt)))
    by (cbn; right; right; left; reflexivity).
  split; [exact He|]. split; [exact Hin|]. split; [reflexivity|].
  exact (proj1 (failed_request_returns_error_text unit unreachable
                  (CallProfile "trader1") (Some attentive) tt _ _ _ He Hin eq_refl)).
Defined.

(** C1, the claim as stated fails: fetch_profile against an unreachable
    endpoint, observed by a context whose [error] call raises.  The POST
    raised, and the tool raises instead of returning a string. *)
Lemma error_notification_failure_escapes :
  In (Post (request_of (CallProfile "trader1")) (Raises connect_error))
     (events (invoke unreachable (CallProfile "trader1") (Some info_only) tt))
  /\ outcome (invoke unreachable (CallProfile "trader1") (Some info_only) tt)
     = Raises (mkExc "NotImplementedError" "error")
  /\ ~ (exists s : string,
          outcome (invoke unreachable (CallProfile "trader1") (Some info_only) tt)
          = Returns s).
Proof.
  split; [cbn; right; right; left; reflexivity|].
  split; [reflexivity|].
  intros [s H]. discriminate H.
Qed.

(** C2.  For every tool and every input, when the POST was answered with a
    2xx status the tool returns the text of the response as it is; so
    fetch_token_broadcasts(token_id="abc123"), answered 200 with the body
    [{"data":{"tokenBroadcasts":{"edges":[]}}}], returns that string. *)
Theorem success_returns_body_verbatim :
  forall (Net : Type) (transport : Net -> Request -> Net * Completion Response)
         (c : ToolCall) (ctx : option Context) (n : Net)
         (req : Request) (r : Response),
    In (Post req (Returns r)) (events (invoke transport c ctx n)) ->
    is_success r = true ->
    outcome (invoke transport c ctx n) = Returns (text r).
Proof.
  intros Net transport c ctx n req r Hin Hok.
  rewrite invoke_shape in Hin |- *.
  apply graphql_tool_post in Hin. destruct Hin as (-> & Hsnd & Hinfo).
  now rewrite graphql_tool_outcome, Hinfo, Hsnd, Hok.
Qed.

(** fetch_token_broadcasts(token_id="abc123") answered 200 with an empty
    edge list. *)
Lemma success_returns_body_verbatim_witness :
  In (Post (request_of (CallTokenBroadcasts "abc123"))
           (Returns (ok_response no_broadcasts_body)))
     (events (invoke (answering (ok_response no_broadcasts_body))
                     (CallTokenBroadcasts "abc123") None tt))
  /\ is_success (ok_response no_broadcasts_body) = true
  /\ outcome (invoke (answering (ok_response no_broadcasts_body))
                     (CallTokenBroadcasts "abc123") None tt)
     = Returns no_broadcasts_body.
Proof.
  assert (Hin : In (Post (request_of (CallTokenBroadcasts "abc123"))
                         (Returns (ok_response no_broadcasts_body)))
                   (events (invoke (answering (ok_response no_broadcasts_body))
                                   (CallTokenBroadcasts "abc123") None tt)))
    by (cbn; right; left; reflexivity).
  split; [exact Hin|]. split; [reflexivity|].
  exact (success_returns_body_verbatim unit
           (answering (ok_response no_broadcasts_body))
           (CallTokenBroadcasts "abc123") None tt _ _ Hin eq_refl).
Defined.

(** C3.  Whatever fetch_leaderboard(leaderboard_type=t) sends has the
    variables object {after: null, first: 100, groupId: null,
    leaderboardType: t, periodsAgo: null}; with the argument left out
    leaderboardType is "PNL_WIN"; and a call without observer sends exactly
    one request, with these variables. *)
Theorem leaderboard_variables :
  forall (Net : Type) (transport : Net -> Request -> Net * Completion Response)
         (ctx : option Context) (n : Net),
    (forall t : string,
        Forall (fun req =>
                  variables_of req
                  = Some (JObj [ ("after", JNull); ("first", JInt 100);
                                 ("groupId", JNull); ("leaderboardType", JStr t);
                                 ("periodsAgo", JNull) ]))
               (sent (fetch_leaderboard transport (Some t) ctx n)))
    /\ Forall (fun req =>
                 variables_of req
                 = Some (JObj [ ("after", JNull); ("first", JInt 100);
                                ("groupId", JNull);
                                ("leaderboardType", JStr "PNL_WIN");
                                ("periodsAgo", JNull) ]))
              (sent (fetch_leaderboard transport None ctx n))
    /\ (forall t : option string,
          map variables_of (sent (fetch_leaderboard transport t None n))
          = [ Some (JObj [ ("after", JNull); ("first", JInt 100);
                           ("groupId", JNull);
                           ("leaderboardType", JStr (arg "PNL_WIN" t));
                           ("periodsAgo", JNull) ]) ]).
Proof.
  intros Net transport ctx n. split; [|split].
  - intros t.
    now apply (invoke_sent_Forall transport _ (CallLeaderboard (Some t))).
  - now apply (invoke_sent_Forall transport _ (CallLeaderboard None)).
  - intros t.
    change (fetch_leaderboard transport t None n)
      with (invoke transport (CallLeaderboard t) None n).
    now rewrite (invoke_sent_quiet transport _ None n absent_info_returns).
Qed.

(** C4.  Whatever the other three tools send carries the documented variables:
    fetch_profile(username=u) {username: u, cursor: null, count: 10};
    fetch_token_data() {count: 50, cursor: null, filterBy: the fixed filter,
    query: null, sortBy: "trendingScore5min:desc"};
    fetch_token_broadcasts(token_id=i) {id: i, after: null, first: 100,
    sortBy: "Time", sortDirection: "Desc"}; and a call without observer sends
    exactly one request, with these variables. *)
Theorem other_tools_variables :
  forall (Net : Type) (transport : Net -> Request -> Net * Completion Response)
         (ctx : option Context) (n : Net),
    (forall u : string,
        Forall (fun req =>
                  variables_of req
                  = Some (JObj [ ("username", JStr u); ("cursor", JNull);
                                 ("count", JInt 10) ]))
               (sent (fetch_profile transport u ctx n)))
    /\ Forall (fun req =>
                 variables_of req
                 = Some (JObj [ ("count", JInt 50); ("cursor", JNull);
                                ("filterBy",
                                 JStr "(broadcastCount5minV2:>0) && (chain:SOLANA)");
                                ("query", JNull);
                                ("sortBy", JStr "trendingScore5min:desc") ]))
              (sent (fetch_token_data transport ctx n))
    /\ (forall i : string,
          Forall (fun req =>
                    variables_of req
                    = Some (JObj [ ("id", JStr i); ("after", JNull);
                                   ("first", JInt 100); ("sortBy", JStr "Time");
                                   ("sortDirection", JStr "Desc") ]))
                 (sent (fetch_token_broadcasts transport i ctx n)))
    /\ (forall u : string,
          map variables_of (sent (fetch_profile transport u None n))
          = [ Some (JObj [ ("username", JStr u); ("cursor", JNull);
                           ("count", JInt 10) ]) ])
    /\ map variables_of (sent (fetch_token_data transport None n))
       = [ Some (JObj [ ("count", JInt 50); ("cursor", JNull);
                        ("filterBy",
                         JStr "(broadcastCount5minV2:>0) && (chain:SOLANA)");
                        ("query", JNull);
                        ("sortBy", JStr "trendingScore5min:desc") ]) ]
    /\ (forall i : string,
          map variables_of (sent (fetch_token_broadcasts transport i None n))
          = [ Some (JObj [ ("id", JStr i); ("after", JNull);
                           ("first", JInt 100); ("sortBy", JStr "Time");
                           ("sortDirection", JStr "Desc") ]) ]).
Proof.
  intros Net transport ctx n. repeat apply conj.
  - intros u. now apply (invoke_sent_Forall transport _ (CallProfile u)).
  - now apply (invoke_sent_Forall transport _ CallTokenData).
  - intros i. now apply (invoke_sent_Forall transport _ (CallTokenBroadcasts i)).
  - intros u.
    change (fetch_profile transport u None n)
      with (invoke transport (CallProfile u) None n).
    now rewrite (invoke_sent_quiet transport _ None n absent_info_returns).
  - change (fetch_token_data transport None n)
      with (invoke transport CallTokenData None n).
    now rewrite (invoke_sent_quiet transport _ None n absent_info_returns).
  - intros i.
    change (fetch_token_broadcasts transport i None n)
      with (invoke transport (CallTokenBroadcasts i) None n).
    now rewrite (invoke_sent_quiet transport _ None n absent_info_returns).
Qed.

(** The four documents have the sizes of the module's literals. *)
Lemma catalog_sizes :
  String.length LEADERBOARD_QUERY = 1276
  /\ String.length PROFILE_QUERY = 1777
  /\ String.length TOKENS_LIST_QUERY = 825
  /\ String.length TOKEN_BROADCASTS_QUERY = 461.
Proof. repeat split; vm_compute; reflexivity. Qed.

(** C5.  Whatever a tool sends has, as its query field, the catalog document
    of that tool unchanged: LEADERBOARD_QUERY, PROFILE_QUERY,
    TOKENS_LIST_QUERY, TOKEN_BROADCASTS_QUERY respectively; a call without
    observer sends exactly one request, with that document. *)
Theorem query_is_catalog_document :
  forall (Net : Type) (transport : Net -> Request -> Net * Completion Response)
         (ctx : option Context) (n : Net),
    (forall t : option string,
        Forall (fun req => query_of req = Some (JStr LEADERBOARD_QUERY))
               (sent (fetch_leaderboard transport t ctx n)))
    /\ (forall u : string,
          Forall (fun req => query_of req = Some (JStr PROFILE_QUERY))
                 (sent (fetch_profile transport u ctx n)))
    /\ Forall (fun req => query_of req = Some (JStr TOKENS_LIST_QUERY))
              (sent (fetch_token_data transport ctx n))
    /\ (forall i : string,
          Forall (fun req => query_of req = Some (JStr TOKEN_BROADCASTS_QUERY))
                 (sent (fetch_token_broadcasts transport i ctx n)))
    /\ (forall c : ToolCall,
          map query_of (sent (invoke transport c None n))
          = [ Some (JStr match c with
                         | CallLeaderboard _ => LEADERBOARD_QUERY
                         | CallProfile _ => PROFILE_QUERY
                         | CallTokenData => TOKENS_LIST_QUERY
                         | CallTokenBroadcasts _ => TOKEN_BROADCASTS_QUERY
                         end) ]).
Proof.
  intros Net transport ctx n. repeat apply conj.
  - intros t. now apply (invoke_sent_Forall transport _ (CallLeaderboard t)).
  - intros u. now apply (invoke_sent_Forall transport _ (CallProfile u)).
  - now apply (invoke_sent_Forall transport _ CallTokenData).
  - intros i. now apply (invoke_sent_Forall transport _ (CallTokenBroadcasts i)).
  - intros c.
    rewrite (invoke_sent_quiet transport c None n absent_info_returns).
    now destruct c.
Qed.

(** C6 (as amended).  For every tool, invoking it twice with the same
    arguments, the observer being absent, false, or returning from its
    [info] notification, produces two outbound requests, one per invocation,
    with byte-identical bodies: each is the request built from the arguments
    alone, whatever state the remote end is in and whatever serialiser is
    used. *)
Theorem repeated_call_sends_identical_request :
  forall (Net : Type) (transport : Net -> Request -> Net * Completion Response)
         (c : ToolCall) (ctx : option Context) (n1 n2 : Net),
    info_returns ctx ->
    sent (invoke transport c ctx n1) = [request_of c]
    /\ sent (invoke transport c ctx n2) = [request_of c]
    /\ (forall dumps : json -> string,
          map (body dumps) (sent (invoke transport c ctx n1))
          = map (body dumps) (sent (invoke transport c ctx n2)))
    /\ sent (invoke transport c ctx n2)
       = sent (invoke transport c ctx (net_after (invoke transport c ctx n1))).
Proof.
  intros Net transport c ctx n1 n2 Hi.
  rewrite !(invoke_sent_quiet transport c ctx _ Hi). auto.
Qed.

(** fetch_leaderboard("TRADE_VOLUME") with an observer that listens. *)
Lemma repeated_call_sends_identical_request_witness :
  info_returns (Some attentive)
  /\ sent (invoke unreachable (CallLeaderboard (Some "TRADE_VOLUME")) (Some attentive) tt)
     = [request_of (CallLeaderboard (Some "TRADE_VOLUME"))].
Proof.
  assert (Hi : info_returns (Some attentive)) by (intros msg; reflexivity).
  split; [exact Hi|].
  exact (proj1 (repeated_call_sends_identical_request unit unreachable
                  (CallLeaderboard (Some "TRADE_VOLUME")) (Some attentive) tt tt Hi)).
Defined.

(** C6, the claim as stated fails: fetch_token_data invoked twice with an
    observer used outside of a request.  Both invocations stop at the
    opening notification and no request goes out. *)
Lemma repeated_call_without_request :
  sent (invoke (answering (ok_response "{}")) CallTokenData (Some outside_request) tt) = []
  /\ sent (invoke (answering (ok_response "{}")) CallTokenData (Some outside_request)
             (net_after (invoke (answering (ok_response "{}")) CallTokenData
                                (Some outside_request) tt))) = []
  /\ ~ (exists r1 r2 : Request,
          sent (invoke (answering (ok_response "{}")) CallTokenData
                       (Some outside_request) tt) = [r1]
          /\ sent (invoke (answering (ok_response "{}")) CallTokenData
                          (Some outside_request) tt) = [r2]).
Proof.
  split; [reflexivity|]. split; [reflexivity|].
  intros (r1 & r2 & H & _). discriminate H.
Qed.

(** C7.  Whatever a tool sends is a POST to API_URL, an https URL, with the
    header set HEADERS (content-type application/json, cache-control
    no-cache), a payload {"query": <string>, "variables": <object>}, through
    a client created with verify=False; a call without observer sends exactly
    one such request, through a client opened and closed within the call. *)
Theorem every_request_is_fixed_post :
  forall (Net : Type) (transport : Net -> Request -> Net * Completion Response)
         (c : ToolCall) (ctx : option Context) (n : Net),
    Forall (fun req =>
              req_method req = "POST"
              /\ req_url req = API_URL
              /\ req_headers req = HEADERS
              /\ req_verify req = false
              /\ exists (q : string) (vars : list (string * json)),
                   req_json req = JObj [("query", JStr q); ("variables", JObj vars)])
           (sent (invoke transport c ctx n))
    /\ API_URL = "https://mainnet-api.vector.fun/graphql"
    /\ prefix "https://" API_URL = true
    /\ dict_get "content-type" HEADERS = Some "application/json"
    /\ dict_get "cache-control" HEADERS = Some "no-cache"
    /\ events (invoke transport c None n)
       = [ ClientOpened (mkClient false);
           Post (request_of c) (snd (transport n (request_of c)));
           ClientClosed ].
Proof.
  intros Net transport c ctx n. repeat apply conj; try reflexivity.
  - apply invoke_sent_Forall. repeat apply conj; try reflexivity.
    destruct c; cbn; eauto.
  - rewrite invoke_shape.
    unfold graphql_tool, async_with, try_except, bind, post, raise_for_status,
      if_ctx, complete, ret, request_of; cbn.
    destruct (transport n _) as [n' [r|e]]; cbn;
      [destruct (is_success r) | ]; reflexivity.
Qed.

(** C8.  For every tool, when the observer is absent the call completes
    normally: it returns the reply to whatever the transport did (the body on
    success, the error text on failure), nothing is attempted on the observer,
    and whenever the same call with an observer returns a string, the call
    without one returns that same string. *)
Theorem absent_observer_is_tolerated :
  forall (Net : Type) (transport : Net -> Request -> Net * Completion Response)
         (c : ToolCall) (n : Net),
    outcome (invoke transport c None n)
    = Returns (reply c (snd (transport n (request_of c))))
    /\ notifications (events (invoke transport c None n)) = []
    /\ (forall (ctx : option Context) (s : string),
          outcome (invoke transport c ctx n) = Returns s ->
          outcome (invoke transport c None n) = Returns s).
Proof.
  intros Net transport c n.
  assert (Hnone : outcome (invoke transport c None n)
                  = Returns (reply c (snd (transport n (request_of c)))))
    by (apply invoke_outcome_quiet; [apply absent_info_returns | apply absent_error_returns]).
  split; [exact Hnone|]. split.
  - rewrite invoke_shape. apply graphql_tool_unobserved_notifications.
  - intros ctx s Hs. rewrite Hnone. rewrite <- Hs.
    rewrite invoke_shape, graphql_tool_outcome.
    destruct (guarded ctx ctx_info _) as [[]|x] eqn:Hi.
    + unfold reply, request_of, handled.
      rewrite invoke_shape, graphql_tool_outcome, Hi in Hs. unfold handled in Hs.
      destruct (snd (transport n _)) as [r|e].
      * destruct (is_success r); [reflexivity|].
        destruct (guarded ctx ctx_error _); [reflexivity | discriminate Hs].
      * destruct (guarded ctx ctx_error _); [reflexivity | discriminate Hs].
    + rewrite invoke_shape, graphql_tool_outcome, Hi in Hs. discriminate Hs.
Qed.

(** fetch_profile against an unreachable endpoint: the error text returned
    with an observer that listens is the one returned without observer. *)
Lemma absent_observer_is_tolerated_witness :
  outcome (invoke unreachable (CallProfile "trader1") (Some attentive) tt)
  = Returns "Error fetching profile data: All connection attempts failed"
  /\ outcome (invoke unreachable (CallProfile "trader1") None tt)
     = Returns "Error fetching profile data: All connection attempts failed".
Proof.
  split; [reflexivity|].
  exact (proj2 (proj2 (absent_observer_is_tolerated unit unreachable
                         (CallProfile "trader1") tt))
               (Some attentive) _ eq_refl).
Defined.

(** C9 (as amended).  Every tool invocation whose observer is absent, false,
    or returns from its notifications performs exactly one outbound request
    and yields exactly one string, the success body or the error text; the
    only state left behind is the one the remote end moved to on that
    request. *)
Theorem one_request_one_reply :
  forall (Net : Type) (transport : Net -> Request -> Net * Completion Response)
         (c : ToolCall) (ctx : option Context) (n : Net),
    info_returns ctx ->
    error_returns ctx ->
    sent (invoke transport c ctx n) = [request_of c]
    /\ outcome (invoke transport c ctx n)
       = Returns (reply c (snd (transport n (request_of c))))
    /\ net_after (invoke transport c ctx n) = fst (transport n (request_of c)).
Proof.
  intros Net transport c ctx n Hi He. repeat apply conj.
  - now apply invoke_sent_quiet.
  - now apply invoke_outcome_quiet.
  - now rewrite invoke_shape, graphql_tool_net_after, Hi.
Qed.

(** fetch_token_data() with an observer that listens, answered 200. *)
Lemma one_request_one_reply_witness :
  info_returns (Some attentive)
  /\ error_returns (Some attentive)
  /\ sent (invoke (answering (ok_response "{}")) CallTokenData (Some attentive) tt)
     = [request_of CallTokenData]
  /\ outcome (invoke (answering (ok_response "{}")) CallTokenData (Some attentive) tt)
     = Returns "{}".
Proof.
  assert (Hi : info_returns (Some attentive)) by (intros msg; reflexivity).
  assert (He : error_returns (Some attentive)) by (intros msg; reflexivity).
  split; [exact Hi|]. split; [exact He|].
  destruct (one_request_one_reply unit (answering (ok_response "{}"))
              CallTokenData (Some attentive) tt Hi He) as (Hs & Ho & _).
  split; [exact Hs | exact Ho].
Defined.

(** C9, the claim as stated fails: fetch_leaderboard observed by a context
    used outside of a request.  The opening notification raises, no request
    is performed and the invocation yields no string. *)
Lemma failed_announcement_sends_nothing :
  sent (invoke (answering (ok_response "{}")) (CallLeaderboard None)
               (Some outside_request) tt) = []
  /\ outcome (invoke (answering (ok_response "{}")) (CallLeaderboard None)
                     (Some outside_request) tt)
     = Raises (mkExc "ValueError" "Context is not available outside of a request")
  /\ ~ (length (sent (invoke (answering (ok_response "{}")) (CallLeaderboard None)
                             (Some outside_request) tt)) = 1
        /\ exists s : string,
             outcome (invoke (answering (ok_response "{}")) (CallLeaderboard None)
                             (Some outside_request) tt) = Returns s).
Proof.
  split; [reflexivity|]. split; [reflexivity|].
  intros [H _]. discriminate H.
Qed.

(** C10.  For every tool, input and transport, the call returns the same
    string (and leaves the remote end in the same state) with no observer as
    with an observer whose [info] and [error] notifications return. *)
Theorem observer_does_not_change_result :
  forall (Net : Type) (transport : Net -> Request -> Net * Completion Response)
         (c : ToolCall) (o : Context) (n : Net),
    (forall msg : string, ctx_info o msg = Returns tt) ->
    (forall msg : string, ctx_error o msg = Returns tt) ->
    outcome (invoke transport c (Some o) n) = outcome (invoke transport c None n)
    /\ (exists s : string, outcome (invoke transport c (Some o) n) = Returns s)
    /\ net_after (invoke transport c (Some o) n) = net_after (invoke transport c None n).
Proof.
  intros Net transport c o n Hinfo Herror.
  assert (Hi : info_returns (Some o))
    by (intros msg; cbn; destruct (ctx_bool o); auto).
  assert (He : error_returns (Some o))
    by (intros msg; cbn; destruct (ctx_bool o); auto).
  rewrite (invoke_outcome_quiet transport c (Some o) n Hi He).
  rewrite (invoke_outcome_quiet transport c None n absent_info_returns absent_error_returns).
  repeat apply conj; eauto.
  now rewrite !invoke_shape, !graphql_tool_net_after, Hi, absent_info_returns.
Qed.

(** fetch_token_broadcasts against an unreachable endpoint, with and without
    an observer that listens. *)
Lemma observer_does_not_change_result_witness :
  (forall msg : string, ctx_info attentive msg = Returns tt)
  /\ (forall msg : string, ctx_error attentive msg = Returns tt)
  /\ outcome (invoke unreachable (CallTokenBroadcasts "abc123") (Some attentive) tt)
     = outcome (invoke unreachable (CallTokenBroadcasts "abc123") None tt).
Proof.
  split; [intros msg; reflexivity|]. split; [intros msg; reflexivity|].
  exact (proj1 (observer_does_not_change_result unit unreachable
                  (CallTokenBroadcasts "abc123") attentive tt
                  (fun _ => eq_refl) (fun _ => eq_refl))).
Defined.

(** * Further properties of the handlers *)

Ltac handler_cases transport ctx n :=
  unfold graphql_tool, async_with, try_except, bind, post, raise_for_status,
    if_ctx, info, error, emit, complete, ret, sent, guarded;
  destruct ctx as [?c|]; cbn;
  [ destruct (ctx_bool _) eqn:?; cbn;
    [ destruct (ctx_info _ _) as [[]|?] eqn:?; cbn | ] | ];
  try (destruct (transport n _) as [?n [?r|?e]] eqn:?; cbn;
       [ destruct (is_success _) eqn:?; cbn | ];
       try (destruct (ctx_error _ _) as [[]|?] eqn:?; cbn)).


(** A returned string is the reply to what the transport did. *)
Lemma invoke_returns_reply {Net : Type}
    (transport : Net -> Request -> Net * Completion Response)
    (c : ToolCall) (ctx : option Context) (n : Net) (s : string) :
  outcome (invoke transport c ctx n) = Returns s ->
  s = reply c (snd (transport n (request_of c))).
Proof.
  rewrite invoke_shape, graphql_tool_outcome.
  unfold reply, request_of, handled.
  destruct (guarded ctx ctx_info _); [|discriminate].
  destruct (snd (transport n _)) as [r|e].
  - destruct (is_success r); [congruence|].
    destruct (guarded ctx ctx_error _); [congruence | discriminate].
  - destruct (guarded ctx ctx_error _); [congruence | discriminate].
Qed.



(** X2.  An observer that is false ([if ctx:] does not hold) is treated like
    no observer at all: the whole run (events, outcome, state of the remote
    end) is that of the call with ctx = None, whatever its [info] and [error]
    methods would do. *)
Theorem false_observer_is_ignored :
  forall (Net : Type) (transport : Net -> Request -> Net * Completion Response)
         (c : ToolCall) (o : Context) (n : Net),
    ctx_bool o = false ->
    invoke transport c (Some o) n = invoke transport c None n.
Proof.
  intros Net transport c o n Hb.
  rewrite !invoke_shape.
  unfold graphql_tool, async_with, try_except, bind, post, raise_for_status,
    if_ctx, complete, ret; cbn.
  rewrite Hb; cbn.
  destruct (transport n _) as [n' [r|e]]; cbn;
    [destruct (is_success r); cbn | ]; rewrite ?Hb; reflexivity.
Qed.

(** An observer that is false and whose methods would raise. *)
Lemma false_observer_is_ignored_witness :
  ctx_bool (mkContext false (ctx_info outside_request) (ctx_error outside_request)) = false
  /\ invoke unreachable CallTokenData
            (Some (mkContext false (ctx_info outside_request) (ctx_error outside_request))) tt
     = invoke unreachable CallTokenData None tt.
Proof.
  split; [reflexivity|].
  exact (false_observer_is_ignored unit unreachable CallTokenData
           (mkContext false (ctx_info outside_request) (ctx_error outside_request))
           tt eq_refl).
Defined.

(** X3.  On every way out of a handler (body returned, error text returned,
    or an observer call raised) the client life cycle is respected: at most
    one client is created, always with verify=False; the POST goes through
    it while it is open; and a client that was opened is closed before the
    handler is left. *)
Theorem client_is_always_closed :
  forall (Net : Type) (transport : Net -> Request -> Net * Completion Response)
         (c : ToolCall) (ctx : option Context) (n : Net),
    bracketed false (events (invoke transport c ctx n)) = true
    /\ (clients (events (invoke transport c ctx n)) = [mkClient false]
        \/ clients (events (invoke transport c ctx n)) = [])
    /\ length (clients (events (invoke transport c ctx n)))
       = length (sent (invoke transport c ctx n)).
Proof.
  intros Net transport c ctx n.
  rewrite invoke_shape.
  handler_cases transport ctx n; auto.
Qed.

(** X4.  When the opening [info] call of a true observer raises, the handler
    is left with that exception at once: the run consists of that one
    notification; no client is created, nothing is sent, the remote end is
    not touched and the [error] method is not called. *)
Theorem failed_announcement_aborts_call :
  forall (Net : Type) (transport : Net -> Request -> Net * Completion Response)
         (c : ToolCall) (o : Context) (n : Net) (e : PyException),
    ctx_bool o = true ->
    ctx_info o (announcement c) = Raises e ->
    invoke transport c (Some o) n
    = mkRun n [Notify Info (announcement c)] (Raises e).
Proof.
  intros Net transport c o n e Hb Hi.
  rewrite invoke_shape.
  unfold graphql_tool, bind, if_ctx, info, emit, complete; cbn.
  rewrite Hb; cbn. now rewrite Hi.
Qed.

(** fetch_token_broadcasts with a context used outside of a request. *)
Lemma failed_announcement_aborts_call_witness :
  ctx_bool outside_request = true
  /\ ctx_info outside_request (announcement (CallTokenBroadcasts "abc123"))
     = Raises (mkExc "ValueError" "Context is not available outside of a request")
  /\ invoke (answering not_found) (CallTokenBroadcasts "abc123") (Some outside_request) tt
     = mkRun tt [Notify Info "Fetching broadcasts for token abc123..."]
         (Raises (mkExc "ValueError" "Context is not available outside of a request")).
Proof.
  split; [reflexivity|]. split; [reflexivity|].
  exact (failed_announcement_aborts_call unit (answering not_found)
           (CallTokenBroadcasts "abc123") outside_request tt _ eq_refl eq_refl).
Defined.

(** X5.  When the request fails and the [error] call of a true observer
    raises, the handler is left with the observer's exception, not with the
    error text and not with the exception of the request; the one request
    has been sent, the remote end has moved on, and the client has been
    closed after the failed notification. *)
Theorem failed_error_notification_replaces_reply :
  forall (Net : Type) (transport : Net -> Request -> Net * Completion Response)
         (c : ToolCall) (o : Context) (n : Net) (msg : string) (x : PyException),
    ctx_bool o = true ->
    ctx_info o (announcement c) = Returns tt ->
    failure_message (snd (transport n (request_of c))) = Some msg ->
    ctx_error o ("Error " ++ action c ++ ": " ++ msg) = Raises x ->
    invoke transport c (Some o) n
    = mkRun (fst (transport n (request_of c)))
        [ Notify Info (announcement c);
          ClientOpened (mkClient false);
          Post (request_of c) (snd (transport n (request_of c)));
          Notify Error ("Error " ++ action c ++ ": " ++ msg);
          ClientClosed ]
        (Raises x).
Proof.
  intros Net transport c o n msg x Hb Hi Hf Hx.
  rewrite <- error_prefix_of_append in Hx |- *.
  rewrite invoke_shape. unfold request_of in *.
  unfold graphql_tool, async_with, try_except, bind, post, raise_for_status,
    if_ctx, info, error, emit, complete, ret; cbn.
  rewrite Hb; cbn. rewrite Hi; cbn.
  destruct (transport n _) as [n' [r|e]]; cbn in *.
  - destruct (is_success r); [discriminate Hf|]. cbn.
    injection Hf as <-. rewrite ?Hb; cbn. now rewrite Hx.
  - injection Hf as <-. rewrite ?Hb; cbn. now rewrite Hx.
Qed.

(** fetch_leaderboard answered 404, with an observer that fails on [error]. *)
Lemma failed_error_notification_replaces_reply_witness :
  outcome (invoke (answering not_found) (CallLeaderboard None) (Some info_only) tt)
  = Raises (mkExc "NotImplementedError" "error")
  /\ sent (invoke (answering not_found) (CallLeaderboard None) (Some info_only) tt)
     = [request_of (CallLeaderboard None)].
Proof.
  rewrite (failed_error_notification_replaces_reply unit (answering not_found)
             (CallLeaderboard None) info_only tt _ _ eq_refl eq_refl eq_refl eq_refl).
  split; reflexivity.
Defined.

(** X6.  Telling failure from success by the leading "Error ": for a remote
    end whose successful bodies do not begin with "Error ", a string returned
    by a handler begins with "Error " exactly when the request failed (the
    POST raised or the status was not 2xx). *)
Theorem error_marker_detects_failure :
  forall (Net : Type) (transport : Net -> Request -> Net * Completion Response)
         (c : ToolCall) (ctx : option Context) (n : Net) (s : string),
    (forall r : Response,
        snd (transport n (request_of c)) = Returns r ->
        is_success r = true ->
        prefix "Error " (text r) = false) ->
    outcome (invoke transport c ctx n) = Returns s ->
    (prefix "Error " s = true
     <-> failure_message (snd (transport n (request_of c))) <> None).
Proof.
  intros Net transport c ctx n s Hbody Hs.
  apply invoke_returns_reply in Hs. subst s.
  unfold reply, failure_message.
  destruct (snd (transport n (request_of c))) as [r|e] eqn:Hout.
  - destruct (is_success r) eqn:Hok.
    + rewrite (Hbody r eq_refl Hok). split; [discriminate | congruence].
    + rewrite error_prefix_of_append, prefix_append. split; [discriminate | reflexivity].
  - rewrite error_prefix_of_append, prefix_append. split; [discriminate | reflexivity].
Qed.

(** fetch_token_broadcasts answered 200 with an empty edge list: the body
    does not begin with the marker, and no failure is detected. *)
Lemma error_marker_detects_failure_witness :
  (forall r : Response,
      snd (answering (ok_response no_broadcasts_body) tt
             (request_of (CallTokenBroadcasts "abc123"))) = Returns r ->
      is_success r = true ->
      prefix "Error " (text r) = false)
  /\ (prefix "Error " no_broadcasts_body = true
      <-> failure_message (Returns (ok_response no_broadcasts_body)) <> None).
Proof.
  assert (H : forall r : Response,
             snd (answering (ok_response no_broadcasts_body) tt
                    (request_of (CallTokenBroadcasts "abc123"))) = Returns r ->
             is_success r = true ->
             prefix "Error " (text r) = false).
  { intros r Hr _. cbn in Hr. injection Hr as <-. reflexivity. }
  split; [exact H|].
  exact (error_marker_detects_failure unit (answering (ok_response no_broadcasts_body))
           (CallTokenBroadcasts "abc123") None tt no_broadcasts_body H eq_refl).
Defined.



(** The size of the document a request carries. *)
Lemma request_of_document_size (c : ToolCall) :
  match query_of (request_of c) with
  | Some (JStr doc) => String.length doc
  | _ => 0
  end
  = match c with
    | CallLeaderboard _ => 1276
    | CallProfile _ => 1777
    | CallTokenData => 825
    | CallTokenBroadcasts _ => 461
    end.
Proof. destruct c; vm_compute; reflexivity. Qed.

Lemma request_of_bind_defaults (c : ToolCall) :
  request_of (bind_defaults c) = request_of c.
Proof. destruct c as [[t|]|u| |i]; reflexivity. Qed.

(** X8.  Two calls put the same request on the wire exactly when they are the
    same call after the binding of defaults: the same tool with the same
    argument, a left-out leaderboard_type counting as "PNL_WIN".  Calls of
    different tools, or with different arguments, never send the same
    request. *)
Theorem request_identifies_call :
  forall c1 c2 : ToolCall,
    request_of c1 = request_of c2 <-> bind_defaults c1 = bind_defaults c2.
Proof.
  intros c1 c2. split.
  - intros H.
    assert (Hsize := f_equal (fun req => match query_of req with
                                         | Some (JStr doc) => String.length doc
                                         | _ => 0
                                         end) H).
    cbv beta in Hsize. rewrite !request_of_document_size in Hsize.
    apply (f_equal variables_of) in H.
    destruct c1, c2; try discriminate Hsize; cbn in H |- *; congruence.
  - intros H. rewrite <- (request_of_bind_defaults c1), <- (request_of_bind_defaults c2).
    now rewrite H.
Qed.

Lemma variables_fit_request_of (c : ToolCall) : variables_fit (request_of c).
Proof.
  destruct c; eexists; eexists;
    (split; [reflexivity|]); (split; [reflexivity|]);
    split; vm_compute declared_variables;
    repeat (apply Forall_cons || apply Forall_nil);
    cbn;
    try (eexists; split; [reflexivity|]; intros; discriminate);
    try (eexists; split; [reflexivity|]; intros H; discriminate H);
    auto 10.
Qed.

(** X9.  Whatever a handler sends, the variables object fits the head of
    the GraphQL document sent with it: every variable the document defines
    ([$name: Type]) is a key of the object, a variable defined non-null
    ([Type!]) has a value other than null, and the object has no key the
    document does not define. *)
Theorem sent_variables_fit_document :
  forall (Net : Type) (transport : Net -> Request -> Net * Completion Response)
         (c : ToolCall) (ctx : option Context) (n : Net),
    Forall variables_fit (sent (invoke transport c ctx n))
    /\ declared_variables LEADERBOARD_QUERY
       = [ ("groupId", false); ("leaderboardType", true); ("periodsAgo", false);
           ("first", false); ("after", false) ]
    /\ declared_variables PROFILE_QUERY
       = [ ("username", true); ("cursor", false); ("count", false) ]
    /\ declared_variables TOKENS_LIST_QUERY
       = [ ("count", false); ("cursor", false); ("filterBy", false);
           ("query", false); ("sortBy", false) ]
    /\ declared_variables TOKEN_BROADCASTS_QUERY
       = [ ("id", true); ("after", false); ("first", false);
           ("sortBy", false); ("sortDirection", false) ].
Proof.
  intros Net transport c ctx n. split.
  - apply invoke_sent_Forall, variables_fit_request_of.
  - repeat split; vm_compute; reflexivity.
Qed.
